(** * Language-client orchestration of the Docker extension (src/src/extension.ts)

    A shallow embedding of the activation, deactivation, discovery and
    configuration-bridge code of [extension.ts], and the properties of the
    specification that concern it.

    Conventions of the embedding:
    - the three module-level variables [dockerfileLanguageClient],
      [composeLanguageClient] and [nativeClient] are fields of [World];
      [None] is JavaScript's [undefined];
    - a function of the source that touches these variables or calls the
      host is a computation in the monad [M]: it reads and writes the
      [World], may throw a [JsError], and logs the calls it makes on
      collaborators as a list of [Effect]s;
    - an [await] is modelled at the point where the awaited promise has
      settled, so each activation function runs to the end of its body; a
      callback started with [void] is run where it is started, so the order
      in the log between the records of different callbacks is that of the
      model and carries no meaning;
    - calls whose only result is a log line ([ext.outputChannel.debug],
      [nativeClient.info]) and the registrations of collaborators that the
      specification excludes (trees, commands, debug and task providers)
      are not modelled. *)

From stdpp Require Import base option list strings gmap fin_maps.
From Stdlib Require Import ZArith.

(** ** JavaScript values and errors *)

(** The values a collaborator of unknown type may hand back. *)
Inductive JsValue : Type :=
| JsUndefined
| JsNull
| JsBoolean (b : bool)
| JsNumber (n : Z)
| JsNaN
| JsString (s : string)
| JsObject.

(** ToBoolean: the test of [if (v)] and of [!!v]. *)
Definition truthy (v : JsValue) : bool :=
  match v with
  | JsUndefined | JsNull | JsNaN => false
  | JsBoolean b => b
  | JsNumber n => negb (Z.eqb n 0)
  | JsString s => negb (String.eqb s "")
  | JsObject => true
  end.

Inductive JsError : Type :=
| TypeError (message : string)
| UserCancelledError (stepName : string)
| HostError (message : string).

#[global] Instance JsError_eq_dec : EqDecision JsError.
Proof. solve_decision. Defined.

#[global] Instance JsValue_eq_dec : EqDecision JsValue.
Proof. solve_decision. Defined.

(** A setting of type [string | undefined], as [config.get<string | undefined>]
    and the cast [user as string] type it. *)
Definition string_truthy (v : option string) : bool :=
  match v with
  | None => false
  | Some s => negb (String.eqb s "")
  end.

(** [v != ""] for [v : string | undefined]: [undefined == ""] is false. *)
Definition loose_neq_empty (v : option string) : bool :=
  match v with
  | None => true
  | Some s => negb (String.eqb s "")
  end.

(** [v || d] for [v : string | undefined]. *)
Definition or_default (v : option string) (d : string) : string :=
  match v with
  | Some s => if string_truthy v then s else d
  | None => d
  end.

Definition to_js (v : option string) : JsValue :=
  match v with
  | Some s => JsString s
  | None => JsUndefined
  end.

(** ** Host configuration *)

(** The settings the orchestration code reads, each with the type the code
    reads it at.  [None] is a setting without value. *)
Record Configuration : Type := {
  docker_dockerPath : option string;
  docker_composeCommand : option string;
  docker_environment : list (string * string);
  docker_enableDockerComposeLanguageService : option bool;
  DockerLsp_User : option string;
  DockerLsp_Workspace : option string
}.

(** [vscode.ConfigurationChangeEvent]: its one method. *)
Record ConfigurationChangeEvent : Type := {
  affectsConfiguration : string -> bool
}.

(** ** Language clients *)

Inductive BackendKind : Type := Native | FallbackDockerfile | Compose.

#[global] Instance BackendKind_eq_dec : EqDecision BackendKind.
Proof. solve_decision. Defined.

Inductive TransportKind : Type := stdio | ipc.

(** One alternative of [ServerOptions]: an [Executable] (command) or a
    [NodeModule] (module run by the host's node). *)
Inductive ServerSpec : Type :=
| Executable (command : string) (transport : TransportKind) (args : list string)
| NodeModule (module : string) (transport : TransportKind) (args : list string)
             (execArgv : list string).

Record ServerOptions : Type := {
  run : ServerSpec;
  debug : ServerSpec
}.

Record DocumentFilter : Type := {
  language : option string;
  scheme : option string
}.

Record TextDocument : Type := {
  languageId : string;
  uriScheme : string
}.

Definition field_matches (f : option string) (v : string) : bool :=
  match f with
  | None => true
  | Some s => String.eqb s v
  end.

Definition filter_matches (d : TextDocument) (f : DocumentFilter) : bool :=
  field_matches (language f) (languageId d) && field_matches (scheme f) (uriScheme d).

Definition selector_matches (sel : list DocumentFilter) (d : TextDocument) : bool :=
  existsb (filter_matches d) sel.

Definition DOCUMENT_SELECTOR : list DocumentFilter :=
  [ {| language := Some "dockerfile"; scheme := Some "file" |} ].

Inductive ClientState : Type :=
| Initial
| Running
| StartFailed
| Stopping
| Stopped.

Record LanguageClient : Type := {
  lc_id : string;
  lc_name : string;
  lc_serverOptions : ServerOptions;
  lc_documentSelector : list DocumentFilter;
  lc_state : ClientState
}.

Definition with_state (s : ClientState) (c : LanguageClient) : LanguageClient :=
  {| lc_id := lc_id c; lc_name := lc_name c;
     lc_serverOptions := lc_serverOptions c;
     lc_documentSelector := lc_documentSelector c;
     lc_state := s |}.

(** ** Runtime clients *)

Inductive RuntimeKind : Type := DockerClient | ComposeClient.

#[global] Instance RuntimeKind_eq_dec : EqDecision RuntimeKind.
Proof. solve_decision. Defined.

(** Modelled from the spec: the classes AutoConfigurableDockerClient and
    AutoConfigurableDockerComposeClient are not among the sources.  A
    Runtime Client is "a configured external command invocation", "created
    once at activation and mutated (not replaced) on configuration change":
    an object identity that never changes and the command setting as it was
    last read from the host configuration. *)
Record RuntimeClient : Type := {
  rc_ident : RuntimeKind;
  rc_command : option string
}.

Definition client_setting (k : RuntimeKind) (cfg : Configuration) : option string :=
  match k with
  | DockerClient => docker_dockerPath cfg
  | ComposeClient => docker_composeCommand cfg
  end.

(** Modelled from the spec: the constructor reads the setting once. *)
Definition new_runtime_client (k : RuntimeKind) (cfg : Configuration) : RuntimeClient :=
  {| rc_ident := k; rc_command := client_setting k cfg |}.

(** Modelled from the spec: [reconfigure()] reads the setting again and
    stores it in the same object. *)
Definition reconfigure (cfg : Configuration) (c : RuntimeClient) : RuntimeClient :=
  {| rc_ident := rc_ident c; rc_command := client_setting (rc_ident c) cfg |}.

(** ** The world, the effects and the monad *)

(** The listeners of [vscode.workspace.onDidChangeConfiguration], named by
    the function that subscribes them. *)
Inductive ConfigListener : Type :=
| EnvironmentChanged        (* registerEnvironmentVariableContributions *)
| CommandChanged            (* registerDockerClients *)
| NativeLogin               (* activateDockerNativeLanguageClient *)
| DidChangeConfiguration.   (* Configuration.initialize *)

Record World : Type := {
  configuration : Configuration;
  dockerfileLanguageClient : option LanguageClient;
  composeLanguageClient : option LanguageClient;
  nativeClient : option LanguageClient;
  dockerClient : option RuntimeClient;
  composeClient : option RuntimeClient;
  configListeners : list ConfigListener;
  composeTelemetryHandler : bool
}.

Inductive TelemetryResult : Type :=
| Succeeded
| Failed (e : JsError)
| Canceled.

(** The calls on collaborators that a computation makes, in order. *)
Inductive Effect : Type :=
| ProbeInvoked
| ClientCreated (k : BackendKind)
| StartCalled (k : BackendKind)
| StopCalled (k : BackendKind)
| RequestSent (k : BackendKind) (method : string) (params : list JsValue)
| NotificationSent (k : BackendKind) (method : string) (settings : JsValue)
| Reconfigured (r : RuntimeKind)
| EnvironmentLogged
| EnvironmentContributionsSet (env : list (string * string))
| Handled (callbackId : string) (result : TelemetryResult).

Inductive Outcome (A : Type) : Type :=
| Returned (a : A)
| Thrown (e : JsError).

Arguments Returned {A} a.
Arguments Thrown {A} e.

Definition M (A : Type) : Type := World -> Outcome A * World * list Effect.

Definition ret {A : Type} (a : A) : M A :=
  fun w => (Returned a, w, []).

Definition bind {A B : Type} (m : M A) (f : A -> M B) : M B :=
  fun w =>
    match m w with
    | (Returned a, w1, t1) =>
        match f a w1 with
        | (r, w2, t2) => (r, w2, t1 ++ t2)
        end
    | (Thrown e, w1, t1) => (Thrown e, w1, t1)
    end.

Definition throw {A : Type} (e : JsError) : M A :=
  fun w => (Thrown e, w, []).

Definition emit (e : Effect) : M unit :=
  fun w => (Returned tt, w, [e]).

Definition get_world : M World :=
  fun w => (Returned w, w, []).

Definition modify (f : World -> World) : M unit :=
  fun w => (Returned tt, f w, []).

(** [try { m } catch (e) { h e }] *)
Definition try_catch {A : Type} (m : M A) (h : JsError -> M A) : M A :=
  fun w =>
    match m w with
    | (Returned a, w1, t1) => (Returned a, w1, t1)
    | (Thrown e, w1, t1) =>
        match h e w1 with
        | (r, w2, t2) => (r, w2, t1 ++ t2)
        end
    end.

Declare Scope js_scope.
Delimit Scope js_scope with js.
Notation "x <- m ;; k" := (bind m (fun x => k))
  (at level 20, m at level 99, k at level 200, only parsing) : js_scope.
Notation "m ;; k" := (bind m (fun _ => k))
  (at level 100, k at level 200, only parsing, right associativity) : js_scope.
Local Open Scope js_scope.

Definition outcome_of {A : Type} (r : Outcome A * World * list Effect) : Outcome A :=
  r.1.1.
Definition world_of {A : Type} (r : Outcome A * World * list Effect) : World :=
  r.1.2.
Definition effects_of {A : Type} (r : Outcome A * World * list Effect) : list Effect :=
  r.2.

(** [callWithTelemetryAndErrorHandling(callbackId, callback)] of
    @microsoft/vscode-azext-utils: runs the callback, records how it ended
    (a [UserCancelledError] counts as [Canceled]), and throws the error on
    only when the callback set [errorHandling.rethrow]. *)
Definition telemetry_result (e : JsError) : TelemetryResult :=
  match e with
  | UserCancelledError _ => Canceled
  | _ => Failed e
  end.

Definition callWithTelemetryAndErrorHandling {A : Type}
    (callbackId : string) (rethrow : bool) (callback : M A) : M (option A) :=
  fun w =>
    match callback w with
    | (Returned a, w1, t1) =>
        (Returned (Some a), w1, t1 ++ [Handled callbackId Succeeded])
    | (Thrown e, w1, t1) =>
        (if rethrow then Thrown e else Returned None,
         w1, t1 ++ [Handled callbackId (telemetry_result e)])
    end.

(** ** The host *)

Inductive ProbeOutcome : Type :=
| ProbeReturned (result : JsValue)
| ProbeThrew (e : JsError).

(** How an awaited request ends: with the answer of the server, or
    rejected. *)
Inductive Answer : Type :=
| Answered (result : JsValue)
| Rejected (e : JsError).

(** What the surroundings decide: how the capability probe ends, whether a
    client's [start()] and [stop()] promise is fulfilled ([None]) or
    rejected, how the native server answers docker/serverInfo/raw, and where
    the extension is installed. *)
Record Host : Type := {
  probe : ProbeOutcome;
  startResult : BackendKind -> option JsError;
  stopResult : BackendKind -> option JsError;
  serverInfoRaw : Answer;
  extensionPath : string
}.

(** ** Access to the module-level variables *)

Definition client_var (k : BackendKind) (w : World) : option LanguageClient :=
  match k with
  | Native => nativeClient w
  | FallbackDockerfile => dockerfileLanguageClient w
  | Compose => composeLanguageClient w
  end.

Definition set_client_var (k : BackendKind) (c : option LanguageClient) (w : World) : World :=
  {| configuration := configuration w;
     dockerfileLanguageClient :=
       match k with FallbackDockerfile => c | _ => dockerfileLanguageClient w end;
     composeLanguageClient :=
       match k with Compose => c | _ => composeLanguageClient w end;
     nativeClient :=
       match k with Native => c | _ => nativeClient w end;
     dockerClient := dockerClient w;
     composeClient := composeClient w;
     configListeners := configListeners w;
     composeTelemetryHandler := composeTelemetryHandler w |}.

Definition runtime_var (r : RuntimeKind) (w : World) : option RuntimeClient :=
  match r with
  | DockerClient => dockerClient w
  | ComposeClient => composeClient w
  end.

Definition set_runtime_var (r : RuntimeKind) (c : option RuntimeClient) (w : World) : World :=
  {| configuration := configuration w;
     dockerfileLanguageClient := dockerfileLanguageClient w;
     composeLanguageClient := composeLanguageClient w;
     nativeClient := nativeClient w;
     dockerClient := match r with DockerClient => c | _ => dockerClient w end;
     composeClient := match r with ComposeClient => c | _ => composeClient w end;
     configListeners := configListeners w;
     composeTelemetryHandler := composeTelemetryHandler w |}.

Definition add_listener (l : ConfigListener) (w : World) : World :=
  {| configuration := configuration w;
     dockerfileLanguageClient := dockerfileLanguageClient w;
     composeLanguageClient := composeLanguageClient w;
     nativeClient := nativeClient w;
     dockerClient := dockerClient w;
     composeClient := composeClient w;
     configListeners := configListeners w ++ [l];
     composeTelemetryHandler := composeTelemetryHandler w |}.

Definition set_telemetry_handler (w : World) : World :=
  {| configuration := configuration w;
     dockerfileLanguageClient := dockerfileLanguageClient w;
     composeLanguageClient := composeLanguageClient w;
     nativeClient := nativeClient w;
     dockerClient := dockerClient w;
     composeClient := composeClient w;
     configListeners := configListeners w;
     composeTelemetryHandler := true |}.

Definition set_configuration (cfg : Configuration) (w : World) : World :=
  {| configuration := cfg;
     dockerfileLanguageClient := dockerfileLanguageClient w;
     composeLanguageClient := composeLanguageClient w;
     nativeClient := nativeClient w;
     dockerClient := dockerClient w;
     composeClient := composeClient w;
     configListeners := configListeners w;
     composeTelemetryHandler := composeTelemetryHandler w |}.

(** The world when the module has been loaded and nothing has run yet. *)
Definition fresh (cfg : Configuration) : World :=
  {| configuration := cfg;
     dockerfileLanguageClient := None;
     composeLanguageClient := None;
     nativeClient := None;
     dockerClient := None;
     composeClient := None;
     configListeners := [];
     composeTelemetryHandler := false |}.

(** Reading a property of [undefined]. *)
Definition undefined_read (prop : string) : JsError :=
  TypeError ("Cannot read properties of undefined (reading '" +:+ prop +:+ "')").

(** Reading a property of [null]. *)
Definition null_read (prop : string) : JsError :=
  TypeError ("Cannot read properties of null (reading '" +:+ prop +:+ "')").

(** [path.join] of plain segments, and [ctx.asAbsolutePath]. *)
Definition path_join (segments : list string) : string :=
  String.concat "/" segments.

Definition asAbsolutePath (root relative : string) : string :=
  path_join [root; relative].

(** ** The orchestration code *)

Section Orchestration.

Variable host : Host.

(** [ext.runWithDefaults(client => client.isLspInstalled())] *)
Definition isLspInstalled : M JsValue :=
  emit ProbeInvoked ;;
  match probe host with
  | ProbeReturned v => ret v
  | ProbeThrew e => throw e
  end.

(** The [try] block either returns from the function ([Some]) or falls
    through to the [return false] after it ([None]). *)
Definition discoverDockerLsp : M bool :=
  returned <- try_catch
                (result <- isLspInstalled ;;
                 if truthy result then ret (Some true) else ret None)
                (fun _ => ret None) ;;
  match returned with
  | Some b => ret b
  | None => ret false
  end.

(** [new LanguageClient(id, name, serverOptions, clientOptions)] assigned to
    the variable of its backend. *)
Definition new_client (k : BackendKind) (id name : string)
    (so : ServerOptions) (sel : list DocumentFilter) : M unit :=
  emit (ClientCreated k) ;;
  modify (set_client_var k (Some {| lc_id := id; lc_name := name;
                                    lc_serverOptions := so;
                                    lc_documentSelector := sel;
                                    lc_state := Initial |})).

(** [await <variable of k>.start()] *)
Definition start (k : BackendKind) : M unit :=
  w <- get_world ;;
  match client_var k w with
  | None => throw (undefined_read "start")
  | Some c =>
      emit (StartCalled k) ;;
      match startResult host k with
      | None => modify (set_client_var k (Some (with_state Running c)))
      | Some e => modify (set_client_var k (Some (with_state StartFailed c))) ;; throw e
      end
  end.

(** [<variable of k>.stop()]: the call, which yields a promise. *)
Definition stop (k : BackendKind) : M (BackendKind * option JsError) :=
  w <- get_world ;;
  match client_var k w with
  | None => throw (undefined_read "stop")
  | Some c =>
      emit (StopCalled k) ;;
      modify (set_client_var k (Some (with_state Stopping c))) ;;
      ret (k, stopResult host k)
  end.

Definition mark_stopped (k : BackendKind) (w : World) : World :=
  match client_var k w with
  | Some c => set_client_var k (Some (with_state Stopped c)) w
  | None => w
  end.

(** [await Promise.all(promises)]: rejected as soon as one promise is.
    Which of several rejections is reported depends on their order in time,
    which is not modelled: the model reports that of the first rejected
    promise of the array. *)
Definition await_all (promises : list (BackendKind * option JsError)) : M unit :=
  match omap snd promises with
  | e :: _ => throw e
  | [] => modify (fun w => foldr mark_stopped w (map fst promises))
  end.

(** [<variable of k>.sendRequest(method, ...params)] *)
Definition sendRequest (k : BackendKind) (method : string) (params : list JsValue) : M unit :=
  w <- get_world ;;
  match client_var k w with
  | None => throw (undefined_read "sendRequest")
  | Some _ => emit (RequestSent k method params)
  end.

(** [<variable of k>.sendNotification(type, { settings })] *)
Definition sendNotification (k : BackendKind) (method : string) (settings : JsValue) : M unit :=
  w <- get_world ;;
  match client_var k w with
  | None => throw (undefined_read "sendNotification")
  | Some _ => emit (NotificationSent k method settings)
  end.

Definition setEnvironmentVariableContributions : M unit :=
  w <- get_world ;;
  emit (EnvironmentContributionsSet (docker_environment (configuration w))).

Definition registerEnvironmentVariableContributions : M unit :=
  setEnvironmentVariableContributions ;;
  modify (add_listener EnvironmentChanged).

Definition registerDockerClients : M unit :=
  w <- get_world ;;
  modify (set_runtime_var DockerClient
            (Some (new_runtime_client DockerClient (configuration w)))) ;;
  modify (set_runtime_var ComposeClient
            (Some (new_runtime_client ComposeClient (configuration w)))) ;;
  modify (add_listener CommandChanged).

(** [dockerClient.reconfigure()] / [composeClient.reconfigure()] *)
Definition call_reconfigure (r : RuntimeKind) : M unit :=
  w <- get_world ;;
  match runtime_var r w with
  | None => throw (undefined_read "reconfigure")
  | Some c =>
      emit (Reconfigured r) ;;
      modify (set_runtime_var r (Some (reconfigure (configuration w) c)))
  end.

(** The [args] of the native server, lines 278-290. *)
Definition native_args (cfg : Configuration) : list string :=
  let args := ["lsp"; "listen"] in
  let user := DockerLsp_User cfg in
  let workspace := DockerLsp_Workspace cfg in
  let args :=
    if string_truthy user && loose_neq_empty user
    then args ++ ["--user"; default "" user] else args in
  let args :=
    if string_truthy workspace && loose_neq_empty workspace
    then args ++ ["--workspace"; default "" workspace] else args in
  args.

Definition native_server_options (cfg : Configuration) : ServerOptions :=
  let dockerCommand := or_default (docker_dockerPath cfg) "docker" in
  let serverModule := dockerCommand in
  let args := native_args cfg in
  {| run := Executable serverModule stdio args;
     debug := Executable serverModule stdio args |}.

Definition bundled_server_options (package : string) : ServerOptions :=
  let serverModule :=
    asAbsolutePath (extensionPath host)
      (path_join ["dist"; package; "lib"; "server.js"]) in
  let debugOptions := ["--nolazy"; "--inspect=6009"] in
  {| run := NodeModule serverModule ipc ["--node-ipc"] [];
     debug := NodeModule serverModule ipc [] debugOptions |}.

Definition dockerfile_server_options : ServerOptions :=
  bundled_server_options "dockerfile-language-server-nodejs".

Definition compose_server_options : ServerOptions :=
  bundled_server_options "compose-language-service".

(** [r[prop]] for the answer [r] of a request: reading a property of
    [undefined] or of [null] throws. *)
Definition read_property (r : JsValue) (prop : string) : M unit :=
  match r with
  | JsUndefined => throw (undefined_read prop)
  | JsNull => throw (null_read prop)
  | _ => ret tt
  end.

(** Lines 353-355: [const r = await nativeClient.sendRequest("docker/serverInfo/raw")],
    then the two log lines, which read [r['log-path']] and [r['port']]. *)
Definition logServerInfo : M unit :=
  sendRequest Native "docker/serverInfo/raw" [] ;;
  r <- match serverInfoRaw host with
       | Answered result => ret result
       | Rejected e => throw e
       end ;;
  read_property r "log-path" ;;
  read_property r "port".

(** The callback that [activateDockerNativeLanguageClient] hands to
    [callWithTelemetryAndErrorHandling]. *)
Definition nativeLanguageClientCallback : M unit :=
  w <- get_world ;;
  new_client Native "dockerLanguageClient" "Docker LSP Client"
    (native_server_options (configuration w)) DOCUMENT_SELECTOR ;;
  modify (add_listener NativeLogin) ;;
  start Native ;;
  logServerInfo.

Definition activateDockerNativeLanguageClient : M unit :=
  callWithTelemetryAndErrorHandling "docker.nativelanguageclient.activate" false
    nativeLanguageClientCallback ;;
  ret tt.

Definition dockerfileLanguageClientCallback : M unit :=
  new_client FallbackDockerfile "dockerfile-langserver" "Dockerfile Language Server"
    dockerfile_server_options DOCUMENT_SELECTOR ;;
  start FallbackDockerfile ;;
  (* Configuration.initialize(ctx) *)
  modify (add_listener DidChangeConfiguration).

Definition activateDockerfileLanguageClient : M unit :=
  callWithTelemetryAndErrorHandling "docker.languageclient.activate" false
    dockerfileLanguageClientCallback ;;
  ret tt.

Definition composeLanguageClientCallback : M unit :=
  w <- get_world ;;
  (if negb (default true (docker_enableDockerComposeLanguageService (configuration w)))
   then throw (UserCancelledError "languageServiceDisabled")
   else ret tt) ;;
  new_client Compose "compose-language-service" "Docker Compose Language Server"
    compose_server_options [ {| language := Some "dockercompose"; scheme := None |} ] ;;
  (* registerEvent('compose-langserver-event', composeLanguageClient.onTelemetry, ...) *)
  modify set_telemetry_handler ;;
  start Compose.

Definition activateComposeLanguageClient : M unit :=
  callWithTelemetryAndErrorHandling "docker.composelanguageclient.activate" false
    composeLanguageClientCallback ;;
  ret tt.

Definition activateInternal : M unit :=
  callWithTelemetryAndErrorHandling "docker.activate" true
    (registerEnvironmentVariableContributions ;;
     registerDockerClients ;;
     native <- discoverDockerLsp ;;
     (if native
      then activateDockerNativeLanguageClient
      else activateDockerfileLanguageClient) ;;
     activateComposeLanguageClient) ;;
  ret tt.

Definition deactivateInternal : M unit :=
  callWithTelemetryAndErrorHandling "docker.deactivate" false
    (p1 <- stop FallbackDockerfile ;;
     p2 <- stop Compose ;;
     p3 <- stop Native ;;
     await_all [p1; p2; p3]) ;;
  ret tt.

(** *** The configuration bridge *)

Definition run_listener (l : ConfigListener) (e : ConfigurationChangeEvent) : M unit :=
  match l with
  | EnvironmentChanged =>
      callWithTelemetryAndErrorHandling "docker.environment.changed" false
        (if affectsConfiguration e "docker.environment"
         then emit EnvironmentLogged ;; setEnvironmentVariableContributions
         else ret tt) ;;
      ret tt
  | CommandChanged =>
      callWithTelemetryAndErrorHandling "docker.command.changed" false
        ((if affectsConfiguration e "docker.dockerPath"
          then call_reconfigure DockerClient else ret tt) ;;
         (if affectsConfiguration e "docker.composeCommand"
          then call_reconfigure ComposeClient else ret tt)) ;;
      ret tt
  | NativeLogin =>
      w <- get_world ;;
      match nativeClient w with
      | None => throw (undefined_read "info")
      | Some _ =>
          if affectsConfiguration e "DockerLsp.User"
             || affectsConfiguration e "DockerLsp.Workspace"
          then sendRequest Native "docker/login"
                 [to_js (DockerLsp_User (configuration w));
                  to_js (DockerLsp_Workspace (configuration w))]
          else ret tt
      end
  | DidChangeConfiguration =>
      sendNotification FallbackDockerfile "workspace/didChangeConfiguration" JsNull
  end.

(** The host's event emitter calls the listeners in the order of their
    subscription; an error thrown by one listener is caught by the emitter
    and does not reach the others. *)
Fixpoint fire (ls : list ConfigListener) (e : ConfigurationChangeEvent) : M unit :=
  match ls with
  | [] => ret tt
  | l :: ls' => try_catch (run_listener l e) (fun _ => ret tt) ;; fire ls' e
  end.

(** The configuration becomes [cfg] and the change event [e] is delivered. *)
Definition onDidChangeConfiguration (cfg : Configuration) (e : ConfigurationChangeEvent) : M unit :=
  modify (set_configuration cfg) ;;
  w <- get_world ;;
  fire (configListeners w) e.

End Orchestration.

(** ** The telemetry bridge of the compose backend *)

Section Telemetry.

(** JavaScript numbers; the bridge only copies them. *)
Variable Num : Type.

(** [TelemetryEvent] of @microsoft/compose-language-service. *)
Record TelemetryEvent : Type := {
  eventName : string;
  evt_properties : option (gmap string string);
  evt_measurements : option (gmap string Num);
  evt_suppressAll : option bool;
  evt_suppressIfSuccessful : option bool
}.

(** [context.telemetry] of an [IActionContext]. *)
Record TelemetryContext : Type := {
  properties : gmap string string;
  measurements : gmap string Num;
  suppressAll : option bool;
  suppressIfSuccessful : option bool
}.

(** [Object.assign(target, source)]: every own property of [source] is
    written to [target]; an [undefined] source is skipped. *)
Definition Object_assign {V : Type} (target : gmap string V)
    (source : option (gmap string V)) : gmap string V :=
  match source with
  | Some src => src ∪ target
  | None => target
  end.

(** The handler registered for ['compose-langserver-event'], lines 463-470;
    the result is [context.telemetry] after the handler has run. *)
Definition compose_langserver_event (telemetry : TelemetryContext)
    (evtArgs : TelemetryEvent) : TelemetryContext :=
  let properties1 :=
    <["langServerEventName" := eventName evtArgs]> (properties telemetry) in
  {| properties := Object_assign properties1 (evt_properties evtArgs);
     measurements := Object_assign (measurements telemetry) (evt_measurements evtArgs);
     suppressAll := evt_suppressAll evtArgs;
     suppressIfSuccessful := evt_suppressIfSuccessful evtArgs |}.

End Telemetry.

Arguments eventName {Num} _.
Arguments evt_properties {Num} _.
Arguments evt_measurements {Num} _.
Arguments evt_suppressAll {Num} _.
Arguments evt_suppressIfSuccessful {Num} _.
Arguments properties {Num} _.
Arguments measurements {Num} _.
Arguments suppressAll {Num} _.
Arguments suppressIfSuccessful {Num} _.
Arguments compose_langserver_event {Num} _ _.

(** ** Vocabulary of the specification *)

(** The capability probe "succeeds with a truthy result". *)
Definition probe_succeeds (h : Host) : bool :=
  match probe h with
  | ProbeReturned v => truthy v
  | ProbeThrew _ => false
  end.

(** The flag of the specification: [name] followed by the value when the
    setting is defined and not the empty string, nothing otherwise. *)
Definition spec_flag (name : string) (setting : option string) : list string :=
  match setting with
  | Some v => if decide (v = "") then [] else [name; v]
  | None => []
  end.

(** The compose language service is enabled unless the flag is set to
    [false]. *)
Definition compose_enabled (cfg : Configuration) : bool :=
  default true (docker_enableDockerComposeLanguageService cfg).

Fixpoint count (p : Effect -> bool) (t : list Effect) : nat :=
  match t with
  | [] => 0
  | e :: t' => (if p e then 1 else 0) + count p t'
  end.

Definition is_created (k : BackendKind) (e : Effect) : bool :=
  match e with
  | ClientCreated k' => bool_decide (k' = k)
  | _ => false
  end.

Definition is_started (k : BackendKind) (e : Effect) : bool :=
  match e with
  | StartCalled k' => bool_decide (k' = k)
  | _ => false
  end.

Definition is_stop (e : Effect) : bool :=
  match e with
  | StopCalled _ => true
  | _ => false
  end.

(** An effect on the life of a session: a client is constructed, started or
    stopped, or the capability probe is run. *)
Definition is_lifecycle (e : Effect) : bool :=
  match e with
  | ProbeInvoked | ClientCreated _ | StartCalled _ | StopCalled _ => true
  | _ => false
  end.

Definition is_reconfigured (r : RuntimeKind) (e : Effect) : bool :=
  match e with
  | Reconfigured r' => bool_decide (r' = r)
  | _ => false
  end.

Definition is_notification (e : Effect) : bool :=
  match e with
  | NotificationSent _ _ _ => true
  | _ => false
  end.

Definition is_request (e : Effect) : bool :=
  match e with
  | RequestSent _ _ _ => true
  | _ => false
  end.

(** The session of kind [k] is running. *)
Definition active (k : BackendKind) (w : World) : bool :=
  match client_var k w with
  | Some c => match lc_state c with Running => true | _ => false end
  | None => false
  end.

(** The sessions among [ks] that serve the document [d]: running, with a
    document selector that matches [d]. *)
Definition served_by (ks : list BackendKind) (w : World) (d : TextDocument) : list BackendKind :=
  List.filter
    (fun k => active k w &&
              match client_var k w with
              | Some c => selector_matches (lc_documentSelector c) d
              | None => false
              end) ks.

(** A document of the language dockerfile. *)
Definition is_dockerfile (d : TextDocument) : bool :=
  bool_decide (languageId d = "dockerfile").

(** The error that ends the reading of the server's information, if any:
    the rejection of the request, or the [TypeError] of reading a property
    of an answer that is [undefined] or [null]. *)
Definition server_info_error (h : Host) : option JsError :=
  match serverInfoRaw h with
  | Rejected e => Some e
  | Answered JsUndefined => Some (undefined_read "log-path")
  | Answered JsNull => Some (null_read "log-path")
  | Answered _ => None
  end.

(** The world after the configuration-change events [evs], in order. *)
Fixpoint deliver (evs : list (Configuration * ConfigurationChangeEvent))
    (w : World) : World :=
  match evs with
  | [] => w
  | (cfg, e) :: evs' => deliver evs' (world_of (onDidChangeConfiguration cfg e w))
  end.

(** The part of the world that decides which sessions exist and which
    listeners are subscribed.  The configuration and the command stored in
    a runtime client are not part of it. *)
Record Wiring : Type := {
  wd_dockerfile : option LanguageClient;
  wd_compose : option LanguageClient;
  wd_native : option LanguageClient;
  wd_listeners : list ConfigListener;
  wd_telemetry : bool;
  wd_dockerClient : option RuntimeKind;
  wd_composeClient : option RuntimeKind
}.

(** The wiring of a world. *)
Definition wiring (w : World) : Wiring :=
  {| wd_dockerfile := dockerfileLanguageClient w;
     wd_compose := composeLanguageClient w;
     wd_native := nativeClient w;
     wd_listeners := configListeners w;
     wd_telemetry := composeTelemetryHandler w;
     wd_dockerClient := rc_ident <$> dockerClient w;
     wd_composeClient := rc_ident <$> composeClient w |}.

(** One listener, run as the emitter runs it. *)
Definition guarded (l : ConfigListener) (e : ConfigurationChangeEvent) : M unit :=
  try_catch (run_listener l e) (fun _ => ret tt).

(** The state of a client of kind [k] once its [start()] has settled. *)
Definition state_after_start (h : Host) (k : BackendKind) : ClientState :=
  match startResult h k with
  | None => Running
  | Some _ => StartFailed
  end.

(** The wiring that [activateInternal] leaves behind, as far as the
    properties below need it. *)
Definition shaped (h : Host) (cfg : Configuration) (d : Wiring) : Prop :=
  wd_listeners d =
    [EnvironmentChanged; CommandChanged] ++
    (if probe_succeeds h then [NativeLogin]
     else match startResult h FallbackDockerfile with
          | None => [DidChangeConfiguration]
          | Some _ => []
          end) /\
  wd_dockerClient d = Some DockerClient /\
  wd_composeClient d = Some ComposeClient /\
  lc_state <$> wd_native d =
    (if probe_succeeds h then Some (state_after_start h Native) else None) /\
  lc_state <$> wd_dockerfile d =
    (if probe_succeeds h then None else Some (state_after_start h FallbackDockerfile)) /\
  lc_state <$> wd_compose d =
    (if compose_enabled cfg then Some (state_after_start h Compose) else None).

(** The setting that holds the path of a runtime client. *)
Definition path_setting (k : RuntimeKind) : string :=
  match k with
  | DockerClient => "docker.dockerPath"
  | ComposeClient => "docker.composeCommand"
  end.

(** The session of kind [k] is restarted by the calls [t]: it is stopped,
    discovery is run again and a session is started. *)
Definition restarted (k : BackendKind) (t : list Effect) : Prop :=
  In (StopCalled k) t /\ In ProbeInvoked t /\ exists k', In (StartCalled k') t.

(** ** Sample inputs *)

(** A host where every [start()] and [stop()] succeeds. *)
Definition sample_host (p : ProbeOutcome) : Host :=
  {| probe := p;
     startResult := fun _ => None;
     stopResult := fun _ => None;
     serverInfoRaw := Answered JsObject;
     extensionPath := "/extension" |}.

(** A host with the native capability whose native server cannot be
    started. *)
Definition unstartable_native_host : Host :=
  {| probe := ProbeReturned (JsBoolean true);
     startResult := fun k => match k with
                             | Native => Some (HostError "spawn docker ENOENT")
                             | _ => None
                             end;
     stopResult := fun _ => None;
     serverInfoRaw := Answered JsObject;
     extensionPath := "/extension" |}.

(** A configuration with a user for the native backend and nothing else
    set but the flag of the compose language service. *)
Definition sample_configuration (composeService : option bool) : Configuration :=
  {| docker_dockerPath := None;
     docker_composeCommand := None;
     docker_environment := [];
     docker_enableDockerComposeLanguageService := composeService;
     DockerLsp_User := Some "moby";
     DockerLsp_Workspace := None |}.

(** The event of a change of the one setting [key]. *)
Definition affects_only (key : string) : ConfigurationChangeEvent :=
  {| affectsConfiguration := String.eqb key |}.

(** ** Further code of [extension.ts] *)

(** *** [Configuration.computeConfiguration], lines 235-251 *)

(** An item of [ConfigurationParams]. *)
Record ConfigurationItem : Type := {
  scopeUri : option string;
  section : option string
}.

(** The result of [protocol2CodeConverter.asUri]. *)
Inductive Uri : Type := asUri (value : string).

(** The [vscode.WorkspaceConfiguration] that the host hands out for a
    section and a scope: named by the call that obtains it. *)
Inductive WorkspaceConfiguration : Type :=
| getConfiguration (section : option string) (scope : option Uri).

(** The body of the loop over [params.items]. *)
Definition item_configuration (item : ConfigurationItem) : M WorkspaceConfiguration :=
  if string_truthy (scopeUri item)
  then
    w <- get_world ;;
    match dockerfileLanguageClient w with
    | None => throw (undefined_read "protocol2CodeConverter")
    | Some _ =>
        ret (getConfiguration (section item) (Some (asUri (default "" (scopeUri item)))))
    end
  else ret (getConfiguration (section item) None).

Fixpoint computeConfiguration_from (result : list WorkspaceConfiguration)
    (items : list ConfigurationItem) : M (list WorkspaceConfiguration) :=
  match items with
  | [] => ret result
  | item :: items' =>
      config <- item_configuration item ;;
      computeConfiguration_from (result ++ [config]) items'
  end.

Definition computeConfiguration (items : list ConfigurationItem) :
    M (list WorkspaceConfiguration) :=
  computeConfiguration_from [] items.

(** *** [setEnvironmentVariableContributions], lines 194-203, on the
    collection it writes *)

(** [ext.context.environmentVariableCollection]. *)
Record EnvironmentVariableCollection : Type := {
  evc_persistent : bool;
  evc_variables : gmap string string
}.

Definition evc_clear (c : EnvironmentVariableCollection) : EnvironmentVariableCollection :=
  {| evc_persistent := evc_persistent c; evc_variables := ∅ |}.

Definition evc_set_persistent (b : bool) (c : EnvironmentVariableCollection) :
    EnvironmentVariableCollection :=
  {| evc_persistent := b; evc_variables := evc_variables c |}.

Definition evc_replace (variable value : string) (c : EnvironmentVariableCollection) :
    EnvironmentVariableCollection :=
  {| evc_persistent := evc_persistent c;
     evc_variables := <[variable := value]> (evc_variables c) |}.

(** The setting [docker.environment] is an object; the loop visits each of
    its keys once, with the value stored under the key. *)
Definition write_contributions (settingValue : gmap string string)
    (c : EnvironmentVariableCollection) : EnvironmentVariableCollection :=
  map_fold evc_replace (evc_set_persistent true (evc_clear c)) settingValue.

(** ** Vocabulary of the further properties *)

Definition is_handled (e : Effect) : bool :=
  match e with
  | Handled _ _ => true
  | _ => false
  end.

Definition is_probe (e : Effect) : bool :=
  match e with
  | ProbeInvoked => true
  | _ => false
  end.

Definition is_environment (e : Effect) : bool :=
  match e with
  | EnvironmentLogged | EnvironmentContributionsSet _ => true
  | _ => false
  end.

(** The record of the callback [id]. *)
Definition handled_as (id : string) (e : Effect) : bool :=
  match e with
  | Handled id' _ => String.eqb id' id
  | _ => false
  end.

(** How the activation of the native client is recorded: by the rejection
    of [start()], else by the error that ended the reading of the server's
    information, else as succeeded. *)
Definition native_outcome (h : Host) : TelemetryResult :=
  match startResult h Native with
  | Some e => telemetry_result e
  | None =>
      match server_info_error h with
      | Some e => telemetry_result e
      | None => Succeeded
      end
  end.

(** How the activation of the client of kind [k] is recorded once its
    [start()] has settled. *)
Definition start_outcome (h : Host) (k : BackendKind) : TelemetryResult :=
  match startResult h k with
  | None => Succeeded
  | Some e => telemetry_result e
  end.

(** The kinds of client that an activation constructs. *)
Definition selected (h : Host) (cfg : Configuration) (k : BackendKind) : bool :=
  match k with
  | Native => probe_succeeds h
  | FallbackDockerfile => negb (probe_succeeds h)
  | Compose => compose_enabled cfg
  end.

(** The item asks for a scoped configuration. *)
Definition scoped (item : ConfigurationItem) : bool :=
  string_truthy (scopeUri item).

(** The configuration an item stands for: scoped when its [scopeUri] is
    defined and not empty. *)
Definition configuration_of (item : ConfigurationItem) : WorkspaceConfiguration :=
  getConfiguration (section item)
    (match scopeUri item with
     | Some u => if decide (u = "") then None else Some (asUri u)
     | None => None
     end).

(** The clients of [ks] up to the first one whose variable is undefined. *)
Fixpoint defined_prefix (ks : list BackendKind) (w : World) : list BackendKind :=
  match ks with
  | [] => []
  | k :: ks' =>
      match client_var k w with
      | Some _ => k :: defined_prefix ks' w
      | None => []
      end
  end.

(** * Properties *)

(** ** Discovery *)

Lemma discoverDockerLsp_eq (h : Host) (w : World) :
  discoverDockerLsp h w = (Returned (probe_succeeds h), w, [ProbeInvoked]).
Proof.
  unfold discoverDockerLsp, isLspInstalled, probe_succeeds, try_catch, bind, emit, ret, throw.
  destruct (probe h) as [v | e]; [destruct (truthy v) |]; reflexivity.
Qed.

(** C3. [discoverDockerLsp] never raises: whatever the capability probe
    does (returns any value, or throws any error), discovery returns a
    boolean and leaves the world as it was; the boolean is [true] exactly
    when the probe returned a truthy value. *)
Theorem discoverDockerLsp_never_raises (h : Host) (w : World) :
  exists b : bool,
    discoverDockerLsp h w = (Returned b, w, [ProbeInvoked]) /\
    (b = true <-> exists v, probe h = ProbeReturned v /\ truthy v = true).
Proof.
  exists (probe_succeeds h). split; [apply discoverDockerLsp_eq |].
  unfold probe_succeeds. destruct (probe h) as [v | e]; split.
  - intros Hv. exists v. auto.
  - intros (v' & Hv' & Ht). congruence.
  - discriminate.
  - intros (v' & Hv' & _). discriminate.
Qed.

(** ** Command line of the native backend *)

Lemma flag_condition (name : string) (v : option string) :
  (if string_truthy v && loose_neq_empty v then [name; default "" v] else [])
  = spec_flag name v.
Proof.
  destruct v as [s |]; [| reflexivity].
  unfold spec_flag, string_truthy, loose_neq_empty. cbn.
  destruct (decide (s = "")) as [-> | Hne]; [reflexivity |].
  apply String.eqb_neq in Hne. rewrite Hne. reflexivity.
Qed.

Lemma native_args_eq (cfg : Configuration) :
  native_args cfg =
  ["lsp"; "listen"] ++ spec_flag "--user" (DockerLsp_User cfg)
                    ++ spec_flag "--workspace" (DockerLsp_Workspace cfg).
Proof.
  unfold native_args.
  rewrite <- (flag_condition "--user"), <- (flag_condition "--workspace").
  destruct (string_truthy (DockerLsp_User cfg) && loose_neq_empty (DockerLsp_User cfg));
    destruct (string_truthy (DockerLsp_Workspace cfg)
              && loose_neq_empty (DockerLsp_Workspace cfg)); reflexivity.
Qed.

(** C10. The arguments of the native backend are ["lsp"; "listen"], then
    ["--user"; u] if and only if DockerLsp.User is defined with a value [u]
    other than the empty string, then ["--workspace"; v] if and only if
    DockerLsp.Workspace is defined with a value [v] other than the empty
    string; an empty string gives what an absent setting gives: no flag. *)
Theorem native_args_flags (cfg : Configuration) :
  exists userFlag workspaceFlag : list string,
    native_args cfg = ["lsp"; "listen"] ++ userFlag ++ workspaceFlag /\
    (forall u, DockerLsp_User cfg = Some u -> u <> "" -> userFlag = ["--user"; u]) /\
    (DockerLsp_User cfg = None \/ DockerLsp_User cfg = Some "" -> userFlag = []) /\
    (forall v, DockerLsp_Workspace cfg = Some v -> v <> "" ->
               workspaceFlag = ["--workspace"; v]) /\
    (DockerLsp_Workspace cfg = None \/ DockerLsp_Workspace cfg = Some "" ->
     workspaceFlag = []).
Proof.
  exists (spec_flag "--user" (DockerLsp_User cfg)),
         (spec_flag "--workspace" (DockerLsp_Workspace cfg)).
  split; [apply native_args_eq |].
  repeat split.
  - intros u -> Hu. unfold spec_flag. destruct (decide (u = "")); congruence.
  - intros [-> | ->]; reflexivity.
  - intros v -> Hv. unfold spec_flag. destruct (decide (v = "")); congruence.
  - intros [-> | ->]; reflexivity.
Qed.

(** ** What a configuration change cannot touch *)

Ltac unfold_monad :=
  unfold callWithTelemetryAndErrorHandling, try_catch, sendRequest, sendNotification,
    call_reconfigure, setEnvironmentVariableContributions,
    bind, ret, throw, emit, modify, get_world in *.

Lemma count_app (p : Effect -> bool) (t1 t2 : list Effect) :
  count p (t1 ++ t2) = count p t1 + count p t2.
Proof. induction t1 as [| e t1 IH]; cbn; [reflexivity | rewrite IH; lia]. Qed.

Lemma guarded_returns (l : ConfigListener) (e : ConfigurationChangeEvent) (w : World) :
  outcome_of (guarded l e w) = Returned tt.
Proof.
  unfold guarded, outcome_of. destruct l; cbn; unfold_monad.
  - destruct (affectsConfiguration e "docker.environment"); reflexivity.
  - destruct (affectsConfiguration e "docker.dockerPath"),
      (affectsConfiguration e "docker.composeCommand"),
      (runtime_var DockerClient w) eqn:Hd, (runtime_var ComposeClient w) eqn:Hc;
      cbn in *; rewrite ?Hc, ?Hd; reflexivity.
  - destruct (nativeClient w) eqn:Hn; cbn; [| reflexivity].
    destruct (affectsConfiguration e "DockerLsp.User" || affectsConfiguration e "DockerLsp.Workspace");
      cbn; rewrite ?Hn; reflexivity.
  - destruct (client_var FallbackDockerfile w); reflexivity.
Qed.

Lemma guarded_frame (l : ConfigListener) (e : ConfigurationChangeEvent) (w : World) :
  wiring (world_of (guarded l e w)) = wiring w /\
  configuration (world_of (guarded l e w)) = configuration w.
Proof.
  unfold guarded, world_of. destruct l; cbn; unfold_monad.
  - destruct (affectsConfiguration e "docker.environment"); cbn; auto.
  - destruct w as [cfg df cp nt dc cc ls th]; cbn.
    destruct (affectsConfiguration e "docker.dockerPath"),
      (affectsConfiguration e "docker.composeCommand"), dc as [[]|], cc as [[]|];
      cbn; auto.
  - destruct (nativeClient w) eqn:Hn; cbn; [| auto].
    destruct (affectsConfiguration e "DockerLsp.User" || affectsConfiguration e "DockerLsp.Workspace");
      cbn; rewrite ?Hn; auto.
  - destruct (client_var FallbackDockerfile w); cbn; auto.
Qed.

(** The effects of a listener depend on the wiring, the configuration and
    the event only. *)
Lemma guarded_effects (l : ConfigListener) (e : ConfigurationChangeEvent) (w w' : World) :
  wiring w = wiring w' -> configuration w = configuration w' ->
  effects_of (guarded l e w) = effects_of (guarded l e w').
Proof.
  intros Hw Hc. destruct w as [cfg df cp nt dc cc ls th], w' as [cfg' df' cp' nt' dc' cc' ls' th'].
  unfold wiring in Hw; cbn in Hw, Hc. injection Hw as -> -> -> -> -> Hdc Hcc. subst cfg'.
  unfold guarded, effects_of. destruct l; cbn; unfold_monad; cbn.
  - destruct (affectsConfiguration e "docker.environment"); reflexivity.
  - destruct (affectsConfiguration e "docker.dockerPath"),
      (affectsConfiguration e "docker.composeCommand"),
      dc as [[]|], dc' as [[]|], cc as [[]|], cc' as [[]|]; cbn in *; congruence.
  - destruct nt'; [| reflexivity].
    destruct (affectsConfiguration e "DockerLsp.User" || affectsConfiguration e "DockerLsp.Workspace");
      reflexivity.
  - destruct df'; reflexivity.
Qed.

Lemma fire_cons (l : ConfigListener) (ls : list ConfigListener)
    (e : ConfigurationChangeEvent) (w : World) :
  fire (l :: ls) e w =
  (outcome_of (fire ls e (world_of (guarded l e w))),
   world_of (fire ls e (world_of (guarded l e w))),
   effects_of (guarded l e w) ++ effects_of (fire ls e (world_of (guarded l e w)))).
Proof.
  cbn [fire]. fold (guarded l e). unfold bind.
  pose proof (guarded_returns l e w) as Hr. unfold outcome_of, world_of, effects_of in *.
  destruct (guarded l e w) as [[o w1] t1]; cbn in *. subst o.
  destruct (fire ls e w1) as [[o2 w2] t2]; reflexivity.
Qed.

Lemma fire_frame (ls : list ConfigListener) (e : ConfigurationChangeEvent) (w : World) :
  outcome_of (fire ls e w) = Returned tt /\
  wiring (world_of (fire ls e w)) = wiring w /\
  configuration (world_of (fire ls e w)) = configuration w.
Proof.
  revert w. induction ls as [| l ls IH]; intros w; [cbn; auto |].
  rewrite fire_cons. unfold outcome_of, world_of; cbn.
  destruct (IH (world_of (guarded l e w))) as (Ho & Hw & Hc).
  destruct (guarded_frame l e w) as (Hw1 & Hc1).
  unfold outcome_of, world_of in *. repeat split; congruence.
Qed.

Lemma fire_effects (ls : list ConfigListener) (e : ConfigurationChangeEvent) (w w' : World) :
  wiring w = wiring w' -> configuration w = configuration w' ->
  effects_of (fire ls e w) = effects_of (fire ls e w').
Proof.
  revert w w'. induction ls as [| l ls IH]; intros w w' Hw Hc; [reflexivity |].
  rewrite !fire_cons. unfold effects_of at 1 4; cbn.
  rewrite (guarded_effects l e w w' Hw Hc). f_equal.
  destruct (guarded_frame l e w) as (Hw1 & Hc1), (guarded_frame l e w') as (Hw2 & Hc2).
  apply IH; congruence.
Qed.

Lemma onDidChangeConfiguration_eq (cfg : Configuration) (e : ConfigurationChangeEvent)
    (w : World) :
  onDidChangeConfiguration cfg e w =
  fire (configListeners w) e (set_configuration cfg w).
Proof.
  unfold onDidChangeConfiguration, bind, modify, get_world; cbn.
  destruct (fire (configListeners w) e (set_configuration cfg w)) as [[o w1] t1].
  reflexivity.
Qed.

Lemma onDidChangeConfiguration_frame (cfg : Configuration) (e : ConfigurationChangeEvent)
    (w : World) :
  outcome_of (onDidChangeConfiguration cfg e w) = Returned tt /\
  wiring (world_of (onDidChangeConfiguration cfg e w)) = wiring w /\
  configuration (world_of (onDidChangeConfiguration cfg e w)) = cfg.
Proof.
  rewrite onDidChangeConfiguration_eq.
  destruct (fire_frame (configListeners w) e (set_configuration cfg w)) as (Ho & Hw & Hc).
  rewrite Ho, Hw, Hc. auto.
Qed.

Lemma onDidChangeConfiguration_effects (cfg : Configuration) (e : ConfigurationChangeEvent)
    (w w' : World) :
  wiring w = wiring w' ->
  effects_of (onDidChangeConfiguration cfg e w) =
  effects_of (onDidChangeConfiguration cfg e w').
Proof.
  intros Hw. rewrite !onDidChangeConfiguration_eq.
  assert (configListeners w = configListeners w') as ->
    by exact (f_equal wd_listeners Hw).
  apply fire_effects; [| reflexivity].
  destruct w, w'; unfold wiring in *; cbn in *. exact Hw.
Qed.

Lemma deliver_wiring (evs : list (Configuration * ConfigurationChangeEvent)) (w : World) :
  wiring (deliver evs w) = wiring w.
Proof.
  revert w. induction evs as [| [cfg e] evs IH]; intros w; [reflexivity |].
  cbn [deliver]. rewrite IH.
  apply (onDidChangeConfiguration_frame cfg e w).
Qed.

(** ** The world after activation *)

Lemma logServerInfo_eq (h : Host) (w : World) :
  logServerInfo h w =
  match nativeClient w with
  | None => (Thrown (undefined_read "sendRequest"), w, [])
  | Some _ =>
      (match server_info_error h with
       | None => Returned tt
       | Some e => Thrown e
       end, w, [RequestSent Native "docker/serverInfo/raw" []])
  end.
Proof.
  unfold logServerInfo, server_info_error, sendRequest, read_property, bind, ret,
    throw, emit, get_world; cbn.
  destruct (nativeClient w); [| reflexivity].
  destruct (serverInfoRaw h) as [[] |]; reflexivity.
Qed.

(** Case analysis on everything the activation depends on; the result of
    the activation is evaluated once and substituted. *)
Ltac activation_cases h cfg :=
  let r := fresh "r" in
  let Hr := fresh "Hr" in
  remember (activateInternal h (fresh cfg)) as r eqn:Hr;
  unfold activateInternal, activateComposeLanguageClient,
    activateDockerfileLanguageClient, activateDockerNativeLanguageClient,
    composeLanguageClientCallback, dockerfileLanguageClientCallback,
    nativeLanguageClientCallback, registerEnvironmentVariableContributions,
    registerDockerClients, new_client, start in Hr;
  unfold callWithTelemetryAndErrorHandling, sendRequest,
    setEnvironmentVariableContributions, bind, ret, throw, emit, modify,
    get_world in Hr;
  rewrite ?discoverDockerLsp_eq in Hr;
  unfold compose_enabled, state_after_start;
  revert Hr;
  destruct cfg as [? ? ? [[|]|] ? ?];
  destruct (probe_succeeds h), (startResult h Native),
    (startResult h FallbackDockerfile), (startResult h Compose);
  intros Hr;
  cbv -[logServerInfo server_info_error] in Hr;
  rewrite ?logServerInfo_eq in Hr;
  try match type of Hr with
      | context [server_info_error h] =>
          revert Hr; destruct (server_info_error h); intros Hr
      end;
  cbv in Hr; subst r.

Lemma activated_shape (h : Host) (cfg : Configuration) :
  shaped h cfg (wiring (world_of (activateInternal h (fresh cfg)))).
Proof. unfold shaped. activation_cases h cfg; cbn; repeat split. Qed.

Lemma reachable_shape (h : Host) (cfg : Configuration)
    (evs : list (Configuration * ConfigurationChangeEvent)) :
  shaped h cfg (wiring (deliver evs (world_of (activateInternal h (fresh cfg))))).
Proof. rewrite deliver_wiring. apply activated_shape. Qed.

(** ** Selection of the sessions *)

Lemma dockerfile_filter_matches (d : TextDocument) :
  filter_matches d {| language := Some "dockerfile"; scheme := Some "file" |} =
  bool_decide (languageId d = "dockerfile") && bool_decide (uriScheme d = "file").
Proof.
  destruct d as [lang sch]. unfold filter_matches, field_matches.
  cbn [language scheme languageId uriScheme].
  destruct (String.eqb_spec "dockerfile" lang) as [<- | Hl]; cbn [andb].
  - rewrite (bool_decide_eq_true_2 _ eq_refl); cbn [andb].
    destruct (String.eqb_spec "file" sch) as [<- | Hs].
    + rewrite (bool_decide_eq_true_2 _ eq_refl). reflexivity.
    + rewrite bool_decide_eq_false_2 by congruence. reflexivity.
  - rewrite bool_decide_eq_false_2 by congruence. reflexivity.
Qed.

(** C1, as the claim has it, fails: a dockerfile document is not always
    served by one of the two dockerfile-capable sessions.  With the native
    session running, an untitled document of the language dockerfile is
    served by neither, because the selector asks for the scheme [file]; and
    when the [start()] of the selected native client is rejected, no session
    serves a dockerfile document on a file either, because the fallback is
    not brought up. *)
Lemma dockerfile_document_served_by_neither :
  let h := sample_host (ProbeReturned (JsBoolean true)) in
  let w := world_of (activateInternal h (fresh (sample_configuration None))) in
  let untitled := {| languageId := "dockerfile"; uriScheme := "untitled" |} in
  let w' := world_of (activateInternal unstartable_native_host
                        (fresh (sample_configuration None))) in
  let onDisk := {| languageId := "dockerfile"; uriScheme := "file" |} in
  (is_dockerfile untitled = true /\ active Native w = true /\
   served_by [Native; FallbackDockerfile] w untitled = []) /\
  (is_dockerfile onDisk = true /\
   served_by [Native; FallbackDockerfile] w' onDisk = []).
Proof. cbv zeta. repeat split; vm_compute; reflexivity. Qed.

(** C1, amended.  On every activation exactly one of the native and the
    fallback dockerfile client is constructed and its [start()] called: the
    native one if and only if discovery returns [true], the fallback one if
    and only if it returns [false].  The compose client is constructed and
    started or not whatever discovery returns (it is, unless the
    configuration disables it).  No kind of client is constructed twice.  A
    document is never served by both dockerfile-capable sessions: it is
    served by exactly one, the selected one, when its language is
    dockerfile, its scheme is [file] and the [start()] of the selected
    client was fulfilled, and by neither otherwise. *)
Theorem activation_selects_one_dockerfile_session (h : Host) (cfg : Configuration) :
  exists discovered : bool,
    (forall w, outcome_of (discoverDockerLsp h w) = Returned discovered) /\
    let r := activateInternal h (fresh cfg) in
    let one_if (b : bool) := if b then 1 else 0 in
    let chosen := if discovered then Native else FallbackDockerfile in
    count (is_created Native) (effects_of r) = one_if discovered /\
    count (is_started Native) (effects_of r) = one_if discovered /\
    count (is_created FallbackDockerfile) (effects_of r) = one_if (negb discovered) /\
    count (is_started FallbackDockerfile) (effects_of r) = one_if (negb discovered) /\
    count (is_created Compose) (effects_of r) = one_if (compose_enabled cfg) /\
    count (is_started Compose) (effects_of r) = one_if (compose_enabled cfg) /\
    (forall k, count (is_created k) (effects_of r) <= 1) /\
    (is_Some (nativeClient (world_of r)) <-> discovered = true) /\
    (is_Some (dockerfileLanguageClient (world_of r)) <-> discovered = false) /\
    (forall d,
       served_by [Native; FallbackDockerfile] (world_of r) d =
       if is_dockerfile d && bool_decide (uriScheme d = "file")
          && bool_decide (startResult h chosen = None)
       then [chosen]
       else []).
Proof.
  exists (probe_succeeds h). split.
  { intros w. rewrite discoverDockerLsp_eq. reflexivity. }
  unfold is_dockerfile.
  activation_cases h cfg; cbn; repeat split;
    try (intros [? ?]; congruence); try discriminate; try (intros []; vm_compute; lia);
    try (intros _; eexists; reflexivity);
    try (intros d; rewrite ?dockerfile_filter_matches;
         destruct (bool_decide (languageId d = "dockerfile")),
           (bool_decide (uriScheme d = "file")); reflexivity).
Qed.

Lemma activated_server_options (h : Host) (cfg : Configuration) :
  let w := world_of (activateInternal h (fresh cfg)) in
  lc_serverOptions <$> nativeClient w =
    (if probe_succeeds h then Some (native_server_options cfg) else None) /\
  lc_serverOptions <$> dockerfileLanguageClient w =
    (if probe_succeeds h then None else Some (dockerfile_server_options h)) /\
  lc_serverOptions <$> composeLanguageClient w =
    (if compose_enabled cfg then Some (compose_server_options h) else None).
Proof. activation_cases h cfg; cbv; repeat split. Qed.

Lemma or_default_eq (v : option string) (d : string) :
  or_default v d =
  match v with
  | Some p => if decide (p = "") then d else p
  | None => d
  end.
Proof.
  destruct v as [p |]; [| reflexivity]. unfold or_default, string_truthy.
  destruct (decide (p = "")) as [-> | Hne]; [reflexivity |].
  apply String.eqb_neq in Hne. rewrite Hne. reflexivity.
Qed.

(** ** How the backends are launched *)

(** C8. The native client launches the configured engine binary
    (docker.dockerPath, "docker" when the setting is absent or empty) with
    the arguments "lsp", "listen" and the optional "--user" and
    "--workspace" flags, over standard I/O; the fallback dockerfile client
    and the compose client launch the script [lib/server.js] of their bundled
    package over the inter-process channel with the argument "--node-ipc". *)
Theorem backend_launch_commands (h : Host) (cfg : Configuration) :
  let w := world_of (activateInternal h (fresh cfg)) in
  let engine :=
    match docker_dockerPath cfg with
    | Some p => if decide (p = "") then "docker" else p
    | None => "docker"
    end in
  let bundled package :=
    NodeModule
      (extensionPath h +:+ "/" +:+ "dist/" +:+ package +:+ "/lib/server.js")
      ipc ["--node-ipc"] [] in
  run <$> (lc_serverOptions <$> nativeClient w) =
    (if probe_succeeds h
     then Some (Executable engine stdio
                  (["lsp"; "listen"] ++ spec_flag "--user" (DockerLsp_User cfg)
                                     ++ spec_flag "--workspace" (DockerLsp_Workspace cfg)))
     else None) /\
  run <$> (lc_serverOptions <$> dockerfileLanguageClient w) =
    (if probe_succeeds h then None
     else Some (bundled "dockerfile-language-server-nodejs")) /\
  run <$> (lc_serverOptions <$> composeLanguageClient w) =
    (if compose_enabled cfg then Some (bundled "compose-language-service") else None).
Proof.
  destruct (activated_server_options h cfg) as (Hn & Hd & Hc).
  cbv zeta. rewrite Hn, Hd, Hc. clear Hn Hd Hc.
  rewrite <- or_default_eq, <- native_args_eq.
  destruct (probe_succeeds h), (compose_enabled cfg); repeat split.
Qed.

(** ** The compose language service disabled *)

(** C4. When the setting enableDockerComposeLanguageService is [false], the
    callback of the compose activation throws
    [UserCancelledError('languageServiceDisabled')] before it has constructed
    or started a client: the world is as before and no call was made.  The
    activation records the outcome as cancelled, not as failed. *)
Theorem compose_disabled_by_configuration (h : Host) (w : World) :
  docker_enableDockerComposeLanguageService (configuration w) = Some false ->
  composeLanguageClientCallback h w =
    (Thrown (UserCancelledError "languageServiceDisabled"), w, []) /\
  activateComposeLanguageClient h w =
    (Returned tt, w, [Handled "docker.composelanguageclient.activate" Canceled]).
Proof.
  intros Hoff.
  unfold activateComposeLanguageClient, callWithTelemetryAndErrorHandling,
    composeLanguageClientCallback, bind, get_world, throw, ret.
  rewrite Hoff. split; reflexivity.
Qed.

(** The compose service disabled in the sample configuration: the
    hypothesis of C4 holds there, and so does its conclusion. *)
Lemma compose_disabled_by_configuration_witness :
  let h := sample_host (ProbeReturned (JsBoolean true)) in
  let w := fresh (sample_configuration (Some false)) in
  docker_enableDockerComposeLanguageService (configuration w) = Some false /\
  composeLanguageClientCallback h w =
    (Thrown (UserCancelledError "languageServiceDisabled"), w, []) /\
  activateComposeLanguageClient h w =
    (Returned tt, w, [Handled "docker.composelanguageclient.activate" Canceled]).
Proof.
  split; [reflexivity |].
  apply (compose_disabled_by_configuration
           (sample_host (ProbeReturned (JsBoolean true)))
           (fresh (sample_configuration (Some false)))).
  reflexivity.
Defined.

(** ** Deactivation *)

(** C2 (the code departs from the claim).  After any activation one of
    [dockerfileLanguageClient] and [nativeClient] is still [undefined], so
    building the array of [stop()] promises throws a [TypeError] before
    [Promise.all] is reached.  [deactivateInternal] does not throw, but no
    stop is ever awaited (no client ends up [Stopped]), and when the native
    session was selected no [stop()] is called at all: the world is left as
    it was. *)
Theorem deactivation_awaits_no_stop (h : Host) (cfg : Configuration) :
  let w := world_of (activateInternal h (fresh cfg)) in
  let r := deactivateInternal h w in
  outcome_of r = Returned tt /\
  last (effects_of r) = Some (Handled "docker.deactivate" (Failed (undefined_read "stop"))) /\
  (forall k, lc_state <$> client_var k (world_of r) <> Some Stopped) /\
  (if probe_succeeds h
   then count is_stop (effects_of r) = 0 /\ world_of r = w
   else count is_stop (effects_of r) = (if compose_enabled cfg then 2 else 1)).
Proof.
  activation_cases h cfg;
    unfold deactivateInternal, callWithTelemetryAndErrorHandling, stop, await_all,
      bind, ret, throw, emit, modify, get_world;
    cbv; repeat split; intros []; discriminate.
Qed.

(** ** Configuration changes *)

Lemma guarded_no_lifecycle (l : ConfigListener) (e : ConfigurationChangeEvent) (w : World) :
  count is_lifecycle (effects_of (guarded l e w)) = 0.
Proof.
  unfold guarded, effects_of. destruct l; cbn; unfold_monad.
  - destruct (affectsConfiguration e "docker.environment"); reflexivity.
  - destruct (affectsConfiguration e "docker.dockerPath"),
      (affectsConfiguration e "docker.composeCommand"),
      (runtime_var DockerClient w) eqn:Hd, (runtime_var ComposeClient w) eqn:Hc;
      cbn in *; rewrite ?Hc, ?Hd; reflexivity.
  - destruct (nativeClient w) eqn:Hn; cbn; [| reflexivity].
    destruct (affectsConfiguration e "DockerLsp.User" || affectsConfiguration e "DockerLsp.Workspace");
      cbn; rewrite ?Hn; reflexivity.
  - destruct (client_var FallbackDockerfile w); reflexivity.
Qed.

Lemma fire_no_lifecycle (ls : list ConfigListener) (e : ConfigurationChangeEvent) (w : World) :
  count is_lifecycle (effects_of (fire ls e w)) = 0.
Proof.
  revert w. induction ls as [| l ls IH]; intros w; [reflexivity |].
  rewrite fire_cons. unfold effects_of at 1; cbn.
  rewrite count_app, guarded_no_lifecycle, IH. reflexivity.
Qed.

(** No configuration change, in any world, constructs, starts or stops a
    client or runs the probe, and none replaces a client variable. *)
Lemma configuration_change_keeps_sessions (cfg : Configuration)
    (e : ConfigurationChangeEvent) (w : World) :
  count is_lifecycle (effects_of (onDidChangeConfiguration cfg e w)) = 0 /\
  (forall k, client_var k (world_of (onDidChangeConfiguration cfg e w)) = client_var k w).
Proof.
  split.
  - rewrite onDidChangeConfiguration_eq. apply fire_no_lifecycle.
  - intros k. destruct (onDidChangeConfiguration_frame cfg e w) as (_ & Hw & _).
    destruct k;
      [exact (f_equal wd_native Hw) | exact (f_equal wd_dockerfile Hw)
       | exact (f_equal wd_compose Hw)].
Qed.

Ltac reachable_cases h cfg evs :=
  let Hs := fresh "Hs" in
  let w := fresh "w" in
  pose proof (reachable_shape h cfg evs) as Hs;
  set (w := deliver evs (world_of (activateInternal h (fresh cfg)))) in *;
  clearbody w;
  destruct w as [? df ? nt dc cc ls ?];
  unfold shaped, wiring, state_after_start in Hs; cbn in Hs;
  destruct Hs as (-> & Hdc & Hcc & Hnt & Hdf & _);
  destruct dc as [[[|] ?] |]; try discriminate Hdc;
  destruct cc as [[[|] ?] |]; try discriminate Hcc;
  clear Hdc Hcc;
  destruct (probe_succeeds h), (startResult h FallbackDockerfile),
    nt as [[? ? ? ? ?] |], df as [[? ? ? ? ?] |];
  try discriminate Hnt; try discriminate Hdf;
  cbn in Hnt, Hdf;
  try (injection Hnt as ->); try (injection Hdf as ->).

Ltac event_cases e :=
  let aff := fresh "aff" in
  destruct e as [aff];
  rewrite ?onDidChangeConfiguration_eq;
  unfold world_of, effects_of, outcome_of, active;
  cbn [fire configListeners app run_listener affectsConfiguration];
  unfold_monad; cbn;
  destruct (aff "docker.environment"), (aff "docker.dockerPath"),
    (aff "docker.composeCommand"), (aff "DockerLsp.User"), (aff "DockerLsp.Workspace");
  cbn.


(** C9. After an activation and any number of configuration changes, a
    further configuration-change event, whatever it affects, sends exactly
    one notification when the fallback dockerfile session is running:
    workspace/didChangeConfiguration with [settings: null], to the fallback
    client.  No other notification is sent, so the native and the compose
    client receive none, neither then nor during the activation. *)
Theorem fallback_is_notified (h : Host) (cfg : Configuration)
    (evs : list (Configuration * ConfigurationChangeEvent))
    (cfg' : Configuration) (e : ConfigurationChangeEvent) :
  let w := deliver evs (world_of (activateInternal h (fresh cfg))) in
  List.filter is_notification (effects_of (onDidChangeConfiguration cfg' e w)) =
    (if active FallbackDockerfile w
     then [NotificationSent FallbackDockerfile "workspace/didChangeConfiguration" JsNull]
     else []) /\
  List.filter is_notification (effects_of (activateInternal h (fresh cfg))) = [].
Proof.
  split.
  - reachable_cases h cfg evs; event_cases e; reflexivity.
  - activation_cases h cfg; reflexivity.
Qed.

(** C7. A configuration-change event calls [reconfigure()] on the
    container-engine client exactly when it affects docker.dockerPath and on
    the orchestrator client exactly when it affects docker.composeCommand,
    once each; the client stays the same object, with its command read
    again from the new configuration, and a client whose setting is not
    affected keeps its command.  No language client is constructed, started,
    stopped or replaced, and discovery is not run. *)
Theorem path_settings_reconfigure_in_place (h : Host) (cfg : Configuration)
    (evs : list (Configuration * ConfigurationChangeEvent))
    (cfg' : Configuration) (e : ConfigurationChangeEvent) :
  let w := deliver evs (world_of (activateInternal h (fresh cfg))) in
  let r := onDidChangeConfiguration cfg' e w in
  (forall k, count (is_reconfigured k) (effects_of r) =
             if affectsConfiguration e (path_setting k) then 1 else 0) /\
  (forall k, exists c c',
      runtime_var k w = Some c /\ runtime_var k (world_of r) = Some c' /\
      rc_ident c' = rc_ident c /\
      rc_command c' = if affectsConfiguration e (path_setting k)
                      then client_setting k cfg' else rc_command c) /\
  count is_lifecycle (effects_of r) = 0 /\
  (forall k, client_var k (world_of r) = client_var k w).
Proof.
  cbv zeta.
  split; [| split; [| apply configuration_change_keeps_sessions]].
  - intros []; unfold path_setting;
      reachable_cases h cfg evs; event_cases e; reflexivity.
  - intros []; unfold path_setting;
      reachable_cases h cfg evs; event_cases e;
      eexists; eexists; repeat split.
Qed.

(** C5, as the claim has it, fails: with the native session running, a
    change of DockerLsp.User stops nothing, runs no discovery and starts
    nothing; it sends a docker/login request. *)
Lemma login_setting_does_not_restart :
  let h := sample_host (ProbeReturned (JsBoolean true)) in
  let cfg := sample_configuration None in
  let w := world_of (activateInternal h (fresh cfg)) in
  let e := affects_only "DockerLsp.User" in
  let t := effects_of (onDidChangeConfiguration cfg e w) in
  active Native w = true /\
  affectsConfiguration e "DockerLsp.User" = true /\
  t = [Handled "docker.environment.changed" Succeeded;
       Handled "docker.command.changed" Succeeded;
       RequestSent Native "docker/login" [JsString "moby"; JsUndefined]] /\
  ~ restarted Native t.
Proof.
  cbv zeta. split; [vm_compute; reflexivity |]. split; [vm_compute; reflexivity |].
  match goal with |- ?t = ?l /\ _ => assert (Ht : t = l) by (vm_compute; reflexivity) end.
  rewrite Ht. split; [reflexivity |].
  intros (Hstop & _). cbn [In] in Hstop.
  repeat (destruct Hstop as [Hstop | Hstop]; [discriminate Hstop |]).
  exact Hstop.
Qed.

(** C5, amended.  A configuration-change event never restarts a session:
    no client is stopped, constructed or started, discovery is not run, and
    the client variables keep their values.  A change of DockerLsp.User or
    DockerLsp.Workspace, when the native session was selected at activation,
    sends one docker/login request with the user and workspace of the new
    configuration to the native client, and no other request is sent; a
    change of docker.dockerPath reconfigures the container-engine client. *)
Theorem selection_settings_do_not_restart (h : Host) (cfg : Configuration)
    (evs : list (Configuration * ConfigurationChangeEvent))
    (cfg' : Configuration) (e : ConfigurationChangeEvent) :
  let w := deliver evs (world_of (activateInternal h (fresh cfg))) in
  let r := onDidChangeConfiguration cfg' e w in
  count is_lifecycle (effects_of r) = 0 /\
  (forall k, ~ restarted k (effects_of r)) /\
  (forall k, client_var k (world_of r) = client_var k w) /\
  List.filter is_request (effects_of r) =
    (if probe_succeeds h
        && (affectsConfiguration e "DockerLsp.User"
            || affectsConfiguration e "DockerLsp.Workspace")
     then [RequestSent Native "docker/login"
             [to_js (DockerLsp_User cfg'); to_js (DockerLsp_Workspace cfg')]]
     else []) /\
  count (is_reconfigured DockerClient) (effects_of r) =
    (if affectsConfiguration e "docker.dockerPath" then 1 else 0).
Proof.
  cbv zeta.
  destruct (configuration_change_keeps_sessions cfg' e
              (deliver evs (world_of (activateInternal h (fresh cfg))))) as (Hl & Hv).
  split; [exact Hl |]. split; [| split; [exact Hv |]].
  - intros k (Hstop & _). revert Hl Hstop.
    generalize (effects_of (onDidChangeConfiguration cfg' e
                  (deliver evs (world_of (activateInternal h (fresh cfg)))))).
    intros t. induction t as [| x t IH]; cbn; [tauto |].
    intros Hc [-> | Hin]; [cbn in Hc; lia |].
    apply IH; [| exact Hin]. destruct (is_lifecycle x); cbn in Hc; lia.
  - split; reachable_cases h cfg evs; event_cases e; reflexivity.
Qed.

(** ** The telemetry bridge *)

Lemma Object_assign_lookup {V : Type} (target : gmap string V)
    (source : option (gmap string V)) (k : string) :
  Object_assign target source !! k =
  match default ∅ source !! k with
  | Some v => Some v
  | None => target !! k
  end.
Proof.
  destruct source as [src |]; cbn.
  - rewrite lookup_union. destruct (src !! k), (target !! k); reflexivity.
  - rewrite lookup_empty. reflexivity.
Qed.

(** C6, as the claim has it, fails: a measurement that the context already
    has is overwritten by the event's measurement of the same name. *)
Lemma telemetry_merge_overwrites :
  let telemetry : TelemetryContext Z :=
    {| properties := ∅; measurements := {[ "duration" := 1%Z ]};
       suppressAll := None; suppressIfSuccessful := None |} in
  let evtArgs : TelemetryEvent Z :=
    {| eventName := "completion"; evt_properties := None;
       evt_measurements := Some {[ "duration" := 2%Z ]};
       evt_suppressAll := None; evt_suppressIfSuccessful := None |} in
  measurements telemetry !! "duration" = Some 1%Z /\
  measurements (compose_langserver_event telemetry evtArgs) !! "duration" = Some 2%Z /\
  ~ (forall k v, measurements telemetry !! k = Some v ->
                 measurements (compose_langserver_event telemetry evtArgs) !! k = Some v).
Proof.
  cbv zeta.
  match goal with |- ?a = ?x /\ ?b = ?y /\ _ =>
    assert (Ha : a = x) by (vm_compute; reflexivity);
    assert (Hb : b = y) by (vm_compute; reflexivity)
  end.
  split; [exact Ha |]. split; [exact Hb |].
  intros H. specialize (H "duration" 1%Z Ha). rewrite Hb in H. discriminate H.
Qed.

(** C6, amended.  The handler copies the suppress flags of the event onto
    the context, records the event name under [langServerEventName], and
    merges the event's measurements and properties into the context's with
    the event's entries taking precedence: a key of the event's map holds
    the event's value afterwards, and a key that the event's map does not
    have holds what it held before (for [langServerEventName], the event
    name). *)
Theorem telemetry_merge_event_wins {Num : Type} (telemetry : TelemetryContext Num)
    (evtArgs : TelemetryEvent Num) :
  let telemetry' := compose_langserver_event telemetry evtArgs in
  suppressAll telemetry' = evt_suppressAll evtArgs /\
  suppressIfSuccessful telemetry' = evt_suppressIfSuccessful evtArgs /\
  (forall k, measurements telemetry' !! k =
             match default ∅ (evt_measurements evtArgs) !! k with
             | Some v => Some v
             | None => measurements telemetry !! k
             end) /\
  (forall k, properties telemetry' !! k =
             match default ∅ (evt_properties evtArgs) !! k with
             | Some v => Some v
             | None => if decide (k = "langServerEventName")
                       then Some (eventName evtArgs)
                       else properties telemetry !! k
             end).
Proof.
  cbv zeta. unfold compose_langserver_event; cbn.
  split; [reflexivity |]. split; [reflexivity |]. split.
  - intros k. apply Object_assign_lookup.
  - intros k. rewrite Object_assign_lookup.
    destruct (default ∅ (evt_properties evtArgs) !! k); [reflexivity |].
    destruct (decide (k = "langServerEventName")) as [-> | Hne].
    + apply lookup_insert_eq.
    + apply lookup_insert_ne. congruence.
Qed.

(** * Further properties *)

(** ** Activation *)

(** X1. Activation returns normally whatever the probe, the clients'
    [start()] and the native server's answer do.  Each activation is
    recorded once.  The native one is recorded as succeeded when [start()]
    was fulfilled and the server's information was read, and with the error
    that ended it otherwise; a rejected [start()] of the fallback or of the
    compose client is recorded in that client's own activation.  None of
    these errors shows in the record of another client's activation or of
    [docker.activate]. *)
Theorem activation_isolates_start_failures (h : Host) (cfg : Configuration) :
  let r := activateInternal h (fresh cfg) in
  let recorded id := List.filter (handled_as id) (effects_of r) in
  outcome_of r = Returned tt /\
  recorded "docker.activate" = [Handled "docker.activate" Succeeded] /\
  recorded "docker.composelanguageclient.activate" =
    [Handled "docker.composelanguageclient.activate"
       (if compose_enabled cfg then start_outcome h Compose else Canceled)] /\
  recorded "docker.nativelanguageclient.activate" =
    (if probe_succeeds h
     then [Handled "docker.nativelanguageclient.activate" (native_outcome h)]
     else []) /\
  recorded "docker.languageclient.activate" =
    (if probe_succeeds h
     then []
     else [Handled "docker.languageclient.activate"
             (start_outcome h FallbackDockerfile)]).
Proof.
  unfold start_outcome, native_outcome.
  activation_cases h cfg; cbv; repeat split; reflexivity.
Qed.

(** X2. After activation the session of kind [k] is running exactly when
    that kind was selected and its [start()] was fulfilled.  A client whose
    [start()] was rejected stays in its variable, not running; in
    particular a rejected start of the native client does not bring up the
    fallback client. *)
Theorem activation_runs_what_started (h : Host) (cfg : Configuration) (k : BackendKind) :
  let w := world_of (activateInternal h (fresh cfg)) in
  active k w = selected h cfg k && bool_decide (startResult h k = None) /\
  lc_state <$> client_var k w =
    (if selected h cfg k then Some (state_after_start h k) else None).
Proof.
  unfold selected. destruct k; activation_cases h cfg; cbv; split; reflexivity.
Qed.

(** X3. An activation runs the capability probe once.  It sends one
    request, docker/serverInfo/raw to the native client, when the native
    client was selected and started, and no request otherwise. *)
Theorem activation_probes_once (h : Host) (cfg : Configuration) :
  let r := activateInternal h (fresh cfg) in
  count is_probe (effects_of r) = 1 /\
  List.filter is_request (effects_of r) =
    (if probe_succeeds h && bool_decide (startResult h Native = None)
     then [RequestSent Native "docker/serverInfo/raw" []]
     else []).
Proof. activation_cases h cfg; cbv; split; reflexivity. Qed.

(** ** Deactivation in any world *)

(** X4. [deactivateInternal] does not throw in any world.  It calls
    [stop()] on the clients in the order of the array (fallback, compose,
    native) up to the first variable that is undefined, and it is recorded
    as succeeded exactly when all three variables are defined and all three
    stops are fulfilled. *)
Theorem deactivation_never_throws (h : Host) (w : World) :
  let r := deactivateInternal h w in
  outcome_of r = Returned tt /\
  List.filter is_stop (effects_of r) =
    map StopCalled (defined_prefix [FallbackDockerfile; Compose; Native] w) /\
  (exists result,
     List.filter is_handled (effects_of r) = [Handled "docker.deactivate" result] /\
     (result = Succeeded <->
      (forall k, is_Some (client_var k w)) /\ (forall k, stopResult h k = None))).
Proof.
  assert (Hundef : forall k, client_var k w = None ->
            ~ ((forall k', is_Some (client_var k' w)) /\
               (forall k', stopResult h k' = None))).
  { intros k Hk [Hall _]. destruct (Hall k) as [x Hx]. congruence. }
  assert (Hrej : forall k e, stopResult h k = Some e ->
            ~ ((forall k', is_Some (client_var k' w)) /\
               (forall k', stopResult h k' = None))).
  { intros k e Hk [_ Hall]. rewrite Hall in Hk. discriminate Hk. }
  unfold deactivateInternal, callWithTelemetryAndErrorHandling, stop, await_all,
    bind, ret, throw, emit, modify, get_world, outcome_of, effects_of.
  destruct w as [c df cp nt dc cc ls th]; cbn in *.
  destruct df as [df |]; cbn;
    [| repeat split; eexists; (split; [reflexivity |]); split;
       [discriminate | intros H; destruct (Hundef FallbackDockerfile eq_refl H)]].
  destruct cp as [cp |]; cbn;
    [| repeat split; eexists; (split; [reflexivity |]); split;
       [discriminate | intros H; destruct (Hundef Compose eq_refl H)]].
  destruct nt as [nt |]; cbn;
    [| repeat split; eexists; (split; [reflexivity |]); split;
       [discriminate | intros H; destruct (Hundef Native eq_refl H)]].
  destruct (stopResult h FallbackDockerfile) as [e1 |] eqn:H1; cbn;
    [repeat split; eexists; (split; [reflexivity |]); split;
       [destruct e1; discriminate
       | intros H; destruct (Hrej FallbackDockerfile e1 H1 H)] |].
  destruct (stopResult h Compose) as [e2 |] eqn:H2; cbn;
    [repeat split; eexists; (split; [reflexivity |]); split;
       [destruct e2; discriminate
       | intros H; destruct (Hrej Compose e2 H2 H)] |].
  destruct (stopResult h Native) as [e3 |] eqn:H3; cbn;
    [repeat split; eexists; (split; [reflexivity |]); split;
       [destruct e3; discriminate
       | intros H; destruct (Hrej Native e3 H3 H)] |].
  repeat split; eexists; (split; [reflexivity |]); split; [| reflexivity].
  intros _. split; intros []; cbn; eauto.
Qed.

(** ** Configuration changes *)

(** X5. A configuration-change event logs the environment and writes the
    environment-variable contributions again exactly when it affects
    docker.environment, and then with the [docker.environment] of the new
    configuration. *)
Theorem environment_change_rewrites_contributions (h : Host) (cfg : Configuration)
    (evs : list (Configuration * ConfigurationChangeEvent))
    (cfg' : Configuration) (e : ConfigurationChangeEvent) :
  let w := deliver evs (world_of (activateInternal h (fresh cfg))) in
  List.filter is_environment (effects_of (onDidChangeConfiguration cfg' e w)) =
    (if affectsConfiguration e "docker.environment"
     then [EnvironmentLogged; EnvironmentContributionsSet (docker_environment cfg')]
     else []).
Proof. reachable_cases h cfg evs; event_cases e; reflexivity. Qed.

(** X6. What a configuration-change event does depends on the new
    configuration and on the event, not on the changes delivered before
    it: the handlers read the configuration afresh. *)
Theorem configuration_change_ignores_history (h : Host) (cfg : Configuration)
    (evs : list (Configuration * ConfigurationChangeEvent))
    (cfg' : Configuration) (e : ConfigurationChangeEvent) :
  let w0 := world_of (activateInternal h (fresh cfg)) in
  effects_of (onDidChangeConfiguration cfg' e (deliver evs w0)) =
  effects_of (onDidChangeConfiguration cfg' e w0) /\
  configuration (world_of (onDidChangeConfiguration cfg' e (deliver evs w0))) = cfg'.
Proof.
  cbv zeta. split.
  - apply onDidChangeConfiguration_effects, deliver_wiring.
  - apply onDidChangeConfiguration_frame.
Qed.

(** X7. Delivering the same configuration change a second time changes
    nothing further: the world is the one after the first delivery, and the
    same calls are made again. *)
Theorem configuration_change_idempotent (h : Host) (cfg : Configuration)
    (evs : list (Configuration * ConfigurationChangeEvent))
    (cfg' : Configuration) (e : ConfigurationChangeEvent) :
  let w := deliver evs (world_of (activateInternal h (fresh cfg))) in
  let r1 := onDidChangeConfiguration cfg' e w in
  let r2 := onDidChangeConfiguration cfg' e (world_of r1) in
  world_of r2 = world_of r1 /\ effects_of r2 = effects_of r1.
Proof.
  cbv zeta. split.
  - reachable_cases h cfg evs; destruct e as [aff];
      destruct (aff "docker.environment") eqn:E1, (aff "docker.dockerPath") eqn:E2,
        (aff "docker.composeCommand") eqn:E3, (aff "DockerLsp.User") eqn:E4,
        (aff "DockerLsp.Workspace") eqn:E5;
      rewrite !onDidChangeConfiguration_eq; unfold world_of;
      repeat (progress
                (cbn [fire configListeners app run_listener affectsConfiguration];
                 unfold_monad; cbn; rewrite ?E1, ?E2, ?E3, ?E4, ?E5));
      reflexivity.
  - apply onDidChangeConfiguration_effects, onDidChangeConfiguration_frame.
Qed.

(** ** The configuration middleware of the fallback client *)

Lemma item_configuration_eq (item : ConfigurationItem) (w : World) :
  item_configuration item w =
  match dockerfileLanguageClient w with
  | Some _ => (Returned (configuration_of item), w, [])
  | None => if scoped item
            then (Thrown (undefined_read "protocol2CodeConverter"), w, [])
            else (Returned (configuration_of item), w, [])
  end.
Proof.
  unfold item_configuration, configuration_of, scoped, string_truthy, bind, get_world,
    ret, throw.
  destruct (scopeUri item) as [u |]; cbn.
  - destruct (decide (u = "")) as [-> | Hne]; cbn.
    + destruct (dockerfileLanguageClient w); reflexivity.
    + apply String.eqb_neq in Hne. rewrite Hne. cbn.
      destruct (dockerfileLanguageClient w); reflexivity.
  - destruct (dockerfileLanguageClient w); reflexivity.
Qed.

Lemma computeConfiguration_from_eq (items : list ConfigurationItem)
    (result : list WorkspaceConfiguration) (w : World) :
  computeConfiguration_from result items w =
  if match dockerfileLanguageClient w with
     | Some _ => true
     | None => forallb (fun item => negb (scoped item)) items
     end
  then (Returned (result ++ map configuration_of items), w, [])
  else (Thrown (undefined_read "protocol2CodeConverter"), w, []).
Proof.
  revert result. induction items as [| item items IH]; intros result; cbn.
  - rewrite app_nil_r. destruct (dockerfileLanguageClient w); reflexivity.
  - unfold bind. rewrite item_configuration_eq.
    destruct (dockerfileLanguageClient w) eqn:Hc.
    + rewrite IH, <- app_assoc. reflexivity.
    + destruct (scoped item); cbn; [reflexivity |].
      rewrite IH, <- app_assoc.
      destruct (forallb (fun item => negb (scoped item)) items); reflexivity.
Qed.

(** X8. [computeConfiguration] answers with one configuration per item, in
    the order of the items; an item is answered with a scoped configuration
    when its [scopeUri] is defined and not empty, and with the unscoped one
    otherwise.  It changes nothing and calls nothing.  It reads the
    fallback client only for a scoped item: without a fallback client it
    still answers when no item is scoped, and throws otherwise. *)
Theorem computeConfiguration_one_per_item (items : list ConfigurationItem) (w : World) :
  computeConfiguration items w =
  if match dockerfileLanguageClient w with
     | Some _ => true
     | None => forallb (fun item => negb (scoped item)) items
     end
  then (Returned (map configuration_of items), w, [])
  else (Thrown (undefined_read "protocol2CodeConverter"), w, []).
Proof. unfold computeConfiguration. apply computeConfiguration_from_eq. Qed.

(** ** The environment-variable contributions *)

(** X9. Whatever the collection held, after
    [setEnvironmentVariableContributions] it is persistent and holds
    exactly the variables of the setting: a variable that is no longer in
    the setting is gone, and one that is there has the setting's value. *)
Theorem contributions_mirror_setting (settingValue : gmap string string)
    (c : EnvironmentVariableCollection) :
  write_contributions settingValue c =
  {| evc_persistent := true; evc_variables := settingValue |}.
Proof.
  unfold write_contributions.
  apply (map_fold_weak_ind
           (fun r m => r = {| evc_persistent := true; evc_variables := m |})).
  - reflexivity.
  - intros i x m r _ ->. reflexivity.
Qed.

(** ** The telemetry bridge, continued *)

Lemma telemetry_context_eq {Num : Type} (a b : TelemetryContext Num) :
  properties a = properties b -> measurements a = measurements b ->
  suppressAll a = suppressAll b -> suppressIfSuccessful a = suppressIfSuccessful b ->
  a = b.
Proof. destruct a, b; cbn; intros -> -> -> ->; reflexivity. Qed.

(** X10. Handling the same telemetry event twice leaves the context as
    handling it once does. *)
Theorem telemetry_event_idempotent {Num : Type} (telemetry : TelemetryContext Num)
    (evtArgs : TelemetryEvent Num) :
  compose_langserver_event (compose_langserver_event telemetry evtArgs) evtArgs =
  compose_langserver_event telemetry evtArgs.
Proof.
  apply telemetry_context_eq; try reflexivity; cbn; apply map_eq; intros k.
  - rewrite !Object_assign_lookup.
    destruct (default ∅ (evt_properties evtArgs) !! k) eqn:Hk; [reflexivity |].
    destruct (decide (k = "langServerEventName")) as [-> | Hne].
    + rewrite !lookup_insert_eq. reflexivity.
    + rewrite !lookup_insert_ne by congruence.
      rewrite Object_assign_lookup, Hk. rewrite lookup_insert_ne by congruence.
      reflexivity.
  - rewrite !Object_assign_lookup.
    destruct (default ∅ (evt_measurements evtArgs) !! k); reflexivity.
Qed.

(** X11. The handler never removes an entry: afterwards the context has the
    keys it had, the keys of the event's map and, among the properties,
    [langServerEventName]; it has no other key. *)
Theorem telemetry_merge_keeps_keys {Num : Type} (telemetry : TelemetryContext Num)
    (evtArgs : TelemetryEvent Num) :
  let telemetry' := compose_langserver_event telemetry evtArgs in
  dom (measurements telemetry') =
    dom (measurements telemetry) ∪ dom (default ∅ (evt_measurements evtArgs)) /\
  dom (properties telemetry') =
    dom (properties telemetry) ∪ {[ "langServerEventName" ]}
      ∪ dom (default ∅ (evt_properties evtArgs)).
Proof.
  cbv zeta. unfold compose_langserver_event, Object_assign; cbn. split.
  - destruct (evt_measurements evtArgs) as [src |]; cbn.
    + rewrite dom_union_L. apply (comm_L (∪)).
    + rewrite dom_empty_L, (right_id_L ∅ (∪)). reflexivity.
  - destruct (evt_properties evtArgs) as [src |]; cbn.
    + rewrite dom_union_L, dom_insert_L.
      rewrite (comm_L (∪) (dom src)), (comm_L (∪) {[ "langServerEventName" ]}).
      reflexivity.
    + rewrite dom_insert_L, dom_empty_L, (right_id_L ∅ (∪)).
      apply (comm_L (∪)).
Qed.

(** X12. Two events in a row: the suppress flags are those of the second
    event, and a measurement has the value of the second event if that
    event has it, else the value of the first if that one has it, else the
    value the context had. *)
Theorem telemetry_last_event_wins {Num : Type} (telemetry : TelemetryContext Num)
    (first second : TelemetryEvent Num) :
  let telemetry' :=
    compose_langserver_event (compose_langserver_event telemetry first) second in
  suppressAll telemetry' = evt_suppressAll second /\
  suppressIfSuccessful telemetry' = evt_suppressIfSuccessful second /\
  (forall k, measurements telemetry' !! k =
             match default ∅ (evt_measurements second) !! k with
             | Some v => Some v
             | None =>
                 match default ∅ (evt_measurements first) !! k with
                 | Some v => Some v
                 | None => measurements telemetry !! k
                 end
             end) /\
  properties telemetry' !! "langServerEventName" =
    Some (default (eventName second)
            (default ∅ (evt_properties second) !! "langServerEventName")).
Proof.
  cbv zeta. split; [reflexivity |]. split; [reflexivity |]. split.
  - intros k. cbn. rewrite !Object_assign_lookup. reflexivity.
  - cbn. rewrite Object_assign_lookup.
    destruct (default ∅ (evt_properties second) !! "langServerEventName");
      [reflexivity |].
    cbn. apply lookup_insert_eq.
Qed.
